(** * EmpiricaContext: the screen-selection gates of the classic player

    A shallow embedding of
    [lib/@empirica/core/src/player/classic/react/EmpiricaContext.tsx]:
    the outer gate [EmpiricaContext], the inner gate
    [EmpiricaInnerContext] and the readiness predicate [useAllReady],
    with the properties their specification states about them. *)

From stdpp Require Import base gmap strings list fin_maps.
From Stdlib Require Import ZArith Ascii String.

#[local] Set Warnings "-register-all".
Local Open Scope string_scope.

(** ** JavaScript values *)

(** A hook's result: the object, [null], or [undefined].  The source
    tells the two absent values apart only once ([game === undefined]). *)
Inductive JSRef (A : Type) : Type :=
| Undefined
| Null
| Obj (a : A).
Arguments Undefined {A}.
Arguments Null {A}.
Arguments Obj {A} a.

(** Attribute values are JSON values.  Numbers are kept as integers:
    the module reads attributes for their truthiness only. *)
Inductive JSVal : Type :=
| JUndefined
| JNull
| JBool (b : bool)
| JNum (n : Z)
| JStr (s : string)
| JObj (fields : gmap string JSVal).

(** [Boolean(v)], the test behind [!v], [&&] and [if (v)]. *)
Definition truthy (v : JSVal) : bool :=
  match v with
  | JUndefined | JNull => false
  | JBool b => b
  | JNum n => negb (n =? 0)%Z
  | JStr s => negb (String.eqb s EmptyString)
  | JObj _ => true
  end.

(** Truthiness of a hook's result: an object is truthy, also an empty
    array. *)
Definition present {A} (r : JSRef A) : bool :=
  match r with
  | Obj _ => true
  | _ => false
  end.

Definition isUndefined {A} (r : JSRef A) : bool :=
  match r with
  | Undefined => true
  | _ => false
  end.

(** ** Completions: a call returns or throws *)

Inductive Completion (A : Type) : Type :=
| Normal (a : A)
| TypeError.
Arguments Normal {A} a.
Arguments TypeError {A}.

#[global] Instance Completion_ret : MRet Completion := @Normal.
#[global] Instance Completion_bind : MBind Completion :=
  fun A B k c =>
    match c with
    | Normal a => k a
    | TypeError => TypeError
    end.

(** A property access [r.x] on a hook's result throws on [null] and
    [undefined]. *)
Definition deref {A} (r : JSRef A) : Completion A :=
  match r with
  | Obj a => Normal a
  | _ => TypeError
  end.

(** ** Entities *)

(** Rounds, stages and a player's game/round/stage references are
    opaque here: the module only tests them for presence. *)
Record Scope : Type := { id : string }.

Module Player.
Record t : Type := {
  attrs : gmap string JSVal;
  game : JSRef Scope;
  round : JSRef Scope;
  stage : JSRef Scope
}.

(** Modelled from the spec: the attribute store of an entity
    ([Scope.get] and [Scope.set], not in the module): a key/value bag
    where [get] of a key never set is [undefined] and [set] persists
    the value under the key. *)
Definition get (p : t) (key : string) : JSVal :=
  default JUndefined (attrs p !! key).

Definition set (p : t) (key : string) (v : JSVal) : t :=
  {| attrs := <[key := v]> (attrs p);
     game := game p; round := round p; stage := stage p |}.
End Player.

(** [game.get("treatment") as { playerCount: number }]: the record the
    source casts the attribute to.  [playerCount] is the count the cast
    promises, an integer, or [None] when the key is undefined. *)
Module Treatment.
Record t : Type := { playerCount : option Z }.
End Treatment.

(** A game: its attribute bag, read through [get]; [hasEnded], a getter
    of the Game class, taken as the terminal flag the specification
    describes; and the [treatment] attribute at the type of the cast. *)
Module Game.
Record t : Type := {
  attrs : gmap string JSVal;
  hasEnded : bool;
  treatment : JSRef Treatment.t
}.

Definition get (g : t) (key : string) : JSVal :=
  default JUndefined (attrs g !! key).
End Game.

Module Globals.
Record t : Type := { attrs : gmap string JSVal }.

Definition get (g : t) (key : string) : JSVal :=
  default JUndefined (attrs g !! key).
End Globals.

Arguments Player.get : simpl never.
Arguments Player.set : simpl never.
Arguments Game.get : simpl never.
Arguments Globals.get : simpl never.

(** [player?.get(key)] *)
Definition optget (player : JSRef Player.t) (key : string) : JSVal :=
  match player with
  | Obj p => Player.get p key
  | _ => JUndefined
  end.

(** ** One snapshot of the hooks, and the props *)

Record Snapshot : Type := {
  tajribaConnected : bool;
  participantConnected : bool;
  globals : JSRef Globals.t;
  player : JSRef Player.t;
  game : JSRef Game.t;
  connecting : bool;
  hasPlayer : bool;
  consented : bool;
  players : JSRef (list Player.t);
  stage : JSRef Scope;
  round : JSRef Scope;
  search : string              (* window.location.search *)
}.

Record Props : Type := {
  unmanagedGame : bool;
  unmanagedAssignment : bool;
  disableConsent : bool;
  disableNoGames : bool;
  disableURLParamsCapture : bool
}.

Definition with_player (s : Snapshot) (p : JSRef Player.t) : Snapshot :=
  {| tajribaConnected := tajribaConnected s;
     participantConnected := participantConnected s;
     globals := globals s;
     player := p;
     game := game s;
     connecting := connecting s;
     hasPlayer := hasPlayer s;
     consented := consented s;
     players := players s;
     stage := stage s;
     round := round s;
     search := search s |}.

(** ** The query string *)

(** Modelled from the spec: [new URLSearchParams(window.location.search)]
    and [Object.fromEntries], built-ins the module calls to "parse the
    current location's query string into a flat key/value map".  The
    cutting rules are those of the URL standard: the query string loses
    a leading [?], is cut at every [&], each non-empty piece is cut at
    its first [=], a [+] reads as a space and [%XY] as the byte [XY];
    the pairs then become a flat object, a later pair with the same key
    replacing an earlier one.  Strings are byte strings. *)
Fixpoint splitOn (sep : ascii) (s : string) : list string :=
  match s with
  | EmptyString => [EmptyString]
  | String c rest =>
      if Ascii.eqb c sep then EmptyString :: splitOn sep rest
      else match splitOn sep rest with
           | [] => [String c EmptyString]
           | piece :: pieces => String c piece :: pieces
           end
  end.

Fixpoint cutAtFirst (sep : ascii) (s : string) : string * string :=
  match s with
  | EmptyString => (EmptyString, EmptyString)
  | String c rest =>
      if Ascii.eqb c sep then (EmptyString, rest)
      else let '(name, value) := cutAtFirst sep rest in
           (String c name, value)
  end.

Fixpoint plusToSpace (s : string) : string :=
  match s with
  | EmptyString => EmptyString
  | String c rest =>
      String (if Ascii.eqb c "+" then " "%char else c) (plusToSpace rest)
  end.

Definition hexDigit (c : ascii) : option nat :=
  let n := nat_of_ascii c in
  if (48 <=? n)%nat && (n <=? 57)%nat then Some (n - 48)%nat
  else if (65 <=? n)%nat && (n <=? 70)%nat then Some (n - 55)%nat
  else if (97 <=? n)%nat && (n <=? 102)%nat then Some (n - 87)%nat
  else None.

Fixpoint percentDecode (s : string) : string :=
  match s with
  | EmptyString => EmptyString
  | String c rest =>
      match rest with
      | String h (String l rest') =>
          match Ascii.eqb c "%", hexDigit h, hexDigit l with
          | true, Some x, Some y =>
              String (ascii_of_nat (16 * x + y)) (percentDecode rest')
          | _, _, _ => String c (percentDecode rest)
          end
      | _ => String c (percentDecode rest)
      end
  end.

Definition URLSearchParams (init : string) : list (string * string) :=
  let query :=
    match init with
    | String "?" rest => rest
    | _ => init
    end in
  map (fun piece =>
         let '(name, value) := cutAtFirst "=" piece in
         (percentDecode (plusToSpace name), percentDecode (plusToSpace value)))
      (filter (fun piece => piece <> EmptyString) (splitOn "&" query)).

Definition fromEntries (entries : list (string * string)) : JSVal :=
  JObj (foldl (fun obj kv => <[kv.1 := JStr kv.2]> obj) ∅ entries).

(** ** Screens *)

(** What a gate returns.  [IntroSteps] is the intro step sequence
    wrapped around [EmpiricaInnerContext]; [Exit] is the exit step
    sequence closed by the Finished screen. *)
Inductive Element : Type :=
| ConnectingComp
| Exit
| LoadingComp
| NoGamesComp
| ConsentComp
| PlayerCreateForm (connecting : bool)
| children
| Lobby
| IntroSteps.

(** A [return] statement, tagged with its line in the source. *)
Record Returned : Type := { line : nat; element : Element }.

Definition ret_at (l : nat) (e : Element) : Returned :=
  {| line := l; element := e |}.

(** ** The outer gate *)

(** [game && game.hasEnded] *)
Definition gameHasEnded (game : JSRef Game.t) : bool :=
  match game with
  | Obj g => Game.hasEnded g
  | _ => false
  end.

(** Lines 130 to 150, on the player narrowed by line 116. *)
Definition gameEndedGuard (p : Player.t) (game : JSRef Game.t) : Returned :=
  if gameHasEnded game then
    if negb (truthy (Player.get p "ended")) then ret_at 132 LoadingComp
    else ret_at 135 Exit
  else ret_at 138 IntroSteps.

(** What one evaluation leaves behind: the [return] taken, the calls of
    [player.set] it made, and the snapshot as the next reader finds it. *)
Record Outcome : Type := {
  returned : Returned;
  writes : list (string * JSVal);
  after : Snapshot
}.

Definition returns (r : Returned) (s : Snapshot) : Completion Outcome :=
  Normal {| returned := r; writes := []; after := s |}.

(** Lines 120 to 150. *)
Definition captureAndRoute (pr : Props) (s : Snapshot) (p : Player.t)
  : Outcome :=
  let capture :=
    negb (disableURLParamsCapture pr)
    && negb (truthy (Player.get p "urlParams")) in
  let urlParams := fromEntries (URLSearchParams (search s)) in
  let p' := if capture then Player.set p "urlParams" urlParams else p in
  {| returned :=
       if unmanagedAssignment pr then ret_at 127 children
       else gameEndedGuard p' (game s);
     writes := if capture then [("urlParams", urlParams)] else [];
     after := if capture then with_player s (Obj p') else s |}.

Definition EmpiricaContext (pr : Props) (s : Snapshot)
  : Completion Outcome :=
  if negb (tajribaConnected s) || connecting s then
    returns (ret_at 84 ConnectingComp) s
  else if match player s with
          | Obj p => truthy (Player.get p "ended")
          | _ => false
          end then
    returns (ret_at 88 Exit) s
  else if negb (present (globals s))
          || (hasPlayer s
              && (negb (participantConnected s)
                  || negb (present (player s))
                  || isUndefined (game s))) then
    returns (ret_at 95 LoadingComp) s
  else
    noGames ←
      (if negb (disableNoGames pr) then
         g ← deref (globals s);
         mret (negb (truthy (Globals.get g "experimentOpen"))
               && (negb (hasPlayer s)
                   || negb (truthy (optget (player s) "gameID"))))
       else mret false);
    if (noGames : bool) then returns (ret_at 103 NoGamesComp) s
    else if negb (disableConsent pr) && negb (consented s) then
      returns (ret_at 107 ConsentComp) s
    else if negb (hasPlayer s) then
      returns (ret_at 111 (PlayerCreateForm (connecting s))) s
    else if negb (present (player s))
            || (negb (unmanagedGame pr) && negb (present (game s))) then
      returns (ret_at 117 LoadingComp) s
    else
      p ← deref (player s);
      mret (captureAndRoute pr s p).

(** ** The readiness predicate *)

Definition placed (p : Player.t) : bool :=
  present (Player.game p) && present (Player.round p)
  && present (Player.stage p).

(** The loop of lines 243 to 247, with its early [return false]. *)
Fixpoint everyPlaced (ps : list Player.t) : bool :=
  match ps with
  | [] => true
  | p :: rest => if negb (placed p) then false else everyPlaced rest
  end.

(** [players.length < playerCount]: against [undefined] the comparison
    is false whatever the length. *)
Definition lengthBelow (len : nat) (playerCount : option Z) : bool :=
  match playerCount with
  | Some n => (Z.of_nat len <? n)%Z
  | None => false
  end.

Definition useAllReady (s : Snapshot) : Completion bool :=
  match player s, players s, stage s, round s, game s with
  | Obj p, Obj ps, Obj _, Obj _, Obj g =>
      if negb (placed p) then mret false
      else
        treatment ← deref (Game.treatment g);
        let playerCount := Treatment.playerCount treatment in
        if lengthBelow (List.length ps) playerCount then mret false
        else mret (everyPlaced ps)
  | _, _, _, _, _ => mret false
  end.

(** ** The inner gate *)

(** Lines 174 to 198, once the hooks of lines 170 to 172 have run. *)
Definition innerGate (pr : Props) (s : Snapshot) (allReady : bool)
  : Returned :=
  match game s with
  | Obj g =>
      if negb (truthy (Game.get g "status")) then ret_at 183 Lobby
      else if Game.hasEnded g then
        if negb (truthy (optget (player s) "ended")) then
          ret_at 188 LoadingComp
        else ret_at 191 Exit
      else if unmanagedGame pr || allReady then ret_at 195 children
      else ret_at 198 LoadingComp
  | _ =>
      if unmanagedGame pr then ret_at 176 children
      else ret_at 178 LoadingComp
  end.

Definition EmpiricaInnerContext (pr : Props) (s : Snapshot)
  : Completion Returned :=
  allReady ← useAllReady s;
  mret (innerGate pr s allReady).

(** ** One evaluation pass *)

(** The outer gate, then the inner gate when the outer one hands over
    to it (the intro steps done), on the snapshot the outer gate left. *)
Definition render (pr : Props) (s : Snapshot) : Completion Returned :=
  o ← EmpiricaContext pr s;
  match element (returned o) with
  | IntroSteps => EmpiricaInnerContext pr (after o)
  | _ => mret (returned o)
  end.

(** ** The priority lists of the specification *)

(** The first guard that holds decides. *)
Fixpoint firstMatch {A} (guards : list (bool * A)) (otherwise : A) : A :=
  match guards with
  | [] => otherwise
  | (guard, a) :: rest => if guard then a else firstMatch rest otherwise
  end.

Definition experimentOpen (globals : JSRef Globals.t) : bool :=
  match globals with
  | Obj g => truthy (Globals.get g "experimentOpen")
  | _ => false
  end.

Definition gameStatus (game : JSRef Game.t) : JSVal :=
  match game with
  | Obj g => Game.get g "status"
  | _ => JUndefined
  end.

(** SessionGate, guards 1 to 11 of the specification, in its words;
    each screen carries the line of the [return] it stands for. *)
Definition SessionGate (pr : Props) (s : Snapshot) : Returned :=
  firstMatch
    [ (negb (tajribaConnected s) || connecting s, ret_at 84 ConnectingComp);
      (truthy (optget (player s) "ended"), ret_at 88 Exit);
      (negb (present (globals s))
       || (hasPlayer s
           && (negb (participantConnected s)
               || negb (present (player s))
               || isUndefined (game s))),
       ret_at 95 LoadingComp);
      (negb (disableNoGames pr)
       && negb (experimentOpen (globals s))
       && (negb (hasPlayer s) || negb (truthy (optget (player s) "gameID"))),
       ret_at 103 NoGamesComp);
      (negb (disableConsent pr) && negb (consented s), ret_at 107 ConsentComp);
      (negb (hasPlayer s), ret_at 111 (PlayerCreateForm false));
      (negb (present (player s))
       || (negb (unmanagedGame pr) && negb (present (game s))),
       ret_at 117 LoadingComp);
      (unmanagedAssignment pr, ret_at 127 children);
      (gameHasEnded (game s) && negb (truthy (optget (player s) "ended")),
       ret_at 132 LoadingComp);
      (gameHasEnded (game s), ret_at 135 Exit) ]
    (ret_at 138 IntroSteps).

(** GameGate, guards 1 to 5 of the specification. *)
Definition GameGate (pr : Props) (s : Snapshot) (ready : bool) : Returned :=
  firstMatch
    [ (negb (present (game s)) && unmanagedGame pr, ret_at 176 children);
      (negb (present (game s)), ret_at 178 LoadingComp);
      (negb (truthy (gameStatus (game s))), ret_at 183 Lobby);
      (gameHasEnded (game s) && negb (truthy (optget (player s) "ended")),
       ret_at 188 LoadingComp);
      (gameHasEnded (game s), ret_at 191 Exit);
      (unmanagedGame pr || ready, ret_at 195 children) ]
    (ret_at 198 LoadingComp).

(** Guard 8, the side effect: the pass got past guard 7, capture is not
    disabled and the identity has no [urlParams] yet. *)
Definition captures (pr : Props) (s : Snapshot) : bool :=
  (120 <=? line (SessionGate pr s))%nat
  && negb (disableURLParamsCapture pr)
  && negb (truthy (optget (player s) "urlParams")).

Definition setIdentity (s : Snapshot) (key : string) (v : JSVal) : Snapshot :=
  match player s with
  | Obj p => with_player s (Obj (Player.set p key v))
  | _ => s
  end.

Definition SessionPass (pr : Props) (s : Snapshot) : Outcome :=
  let urlParams := fromEntries (URLSearchParams (search s)) in
  {| returned := SessionGate pr s;
     writes := if captures pr s then [("urlParams", urlParams)] else [];
     after :=
       if captures pr s then setIdentity s "urlParams" urlParams else s |}.

(** The snapshots on which the readiness predicate gets to its
    headcount read and finds no treatment on the game. *)
Definition readsAbsentTreatment (s : Snapshot) : bool :=
  match player s, players s, stage s, round s, game s with
  | Obj p, Obj _, Obj _, Obj _, Obj g =>
      placed p && negb (present (Game.treatment g))
  | _, _, _, _, _ => false
  end.

(** The presence checks of the readiness predicate alone, the
    headcount left out. *)
Definition allPlaced (s : Snapshot) : bool :=
  match player s, players s, stage s, round s, game s with
  | Obj p, Obj ps, Obj _, Obj _, Obj _ => placed p && forallb placed ps
  | _, _, _, _, _ => false
  end.

(** ** Sample sessions *)

Definition defaults : Props :=
  {| unmanagedGame := false;
     unmanagedAssignment := false;
     disableConsent := false;
     disableNoGames := false;
     disableURLParamsCapture := false |}.

Definition unmanagedAssignmentOnly : Props :=
  {| unmanagedGame := false;
     unmanagedAssignment := true;
     disableConsent := false;
     disableNoGames := false;
     disableURLParamsCapture := false |}.

Definition noGamesDisabled : Props :=
  {| unmanagedGame := false;
     unmanagedAssignment := false;
     disableConsent := false;
     disableNoGames := true;
     disableURLParamsCapture := false |}.

Definition without_capture (pr : Props) : Props :=
  {| unmanagedGame := unmanagedGame pr;
     unmanagedAssignment := unmanagedAssignment pr;
     disableConsent := disableConsent pr;
     disableNoGames := disableNoGames pr;
     disableURLParamsCapture := true |}.

Definition someScope : Scope := {| id := "01HZX" |}.

(** A participant placed in a game, a round and a stage. *)
Definition alice : Player.t :=
  {| Player.attrs := {[ "gameID" := JStr "01HZX" ]};
     Player.game := Obj someScope;
     Player.round := Obj someScope;
     Player.stage := Obj someScope |}.

Definition aliceEnded : Player.t := Player.set alice "ended" (JBool true).

Definition runningGame (ended : bool) (t : JSRef Treatment.t) : Game.t :=
  {| Game.attrs := {[ "status" := JStr "running" ]};
     Game.hasEnded := ended;
     Game.treatment := t |}.

Definition pairs : Treatment.t := {| Treatment.playerCount := Some 2%Z |}.
Definition uncounted : Treatment.t := {| Treatment.playerCount := None |}.

(** A session past consent and identity creation. *)
Definition session (transport : bool) (p : Player.t) (g : JSRef Game.t)
    (ps : list Player.t) : Snapshot :=
  {| tajribaConnected := transport;
     participantConnected := true;
     globals := Obj {| Globals.attrs := {[ "experimentOpen" := JBool true ]} |};
     player := Obj p;
     game := g;
     connecting := false;
     hasPlayer := true;
     consented := true;
     players := Obj ps;
     stage := Obj someScope;
     round := Obj someScope;
     search := "?a=1&b=2" |}.

(** A visitor to a closed experiment, before any identity exists. *)
Definition visitorWhenClosed : Snapshot :=
  {| tajribaConnected := true;
     participantConnected := false;
     globals := Obj {| Globals.attrs := ∅ |};
     player := Undefined;
     game := Undefined;
     connecting := false;
     hasPlayer := false;
     consented := false;
     players := Undefined;
     stage := Undefined;
     round := Undefined;
     search := EmptyString |}.

(** The snapshot [s] with another identity, player set, round and
    stage. *)
Definition populate (s : Snapshot) (p : Player.t) (ps : list Player.t)
  : Snapshot :=
  {| tajribaConnected := tajribaConnected s;
     participantConnected := participantConnected s;
     globals := globals s;
     player := Obj p;
     game := game s;
     connecting := connecting s;
     hasPlayer := hasPlayer s;
     consented := consented s;
     players := Obj ps;
     stage := Obj someScope;
     round := Obj someScope;
     search := search s |}.

(** Further samples. *)
Definition unmanagedGameOnly : Props :=
  {| unmanagedGame := true;
     unmanagedAssignment := false;
     disableConsent := false;
     disableNoGames := false;
     disableURLParamsCapture := false |}.

(** A game assigned and not started: no [status] yet. *)
Definition lobbyGame : Game.t :=
  {| Game.attrs := ∅;
     Game.hasEnded := false;
     Game.treatment := Obj pairs |}.

(** A visitor who has consented, experiment open, no identity yet. *)
Definition consentedVisitor : Snapshot :=
  {| tajribaConnected := true;
     participantConnected := false;
     globals := Obj {| Globals.attrs := {[ "experimentOpen" := JBool true ]} |};
     player := Undefined;
     game := Undefined;
     connecting := false;
     hasPlayer := false;
     consented := true;
     players := Undefined;
     stage := Undefined;
     round := Undefined;
     search := EmptyString |}.

(** A participant not yet placed anywhere. *)
Definition bob : Player.t :=
  {| Player.attrs := ∅;
     Player.game := Undefined;
     Player.round := Undefined;
     Player.stage := Undefined |}.

(** The snapshot [s] with another player set. *)
Definition with_players (s : Snapshot) (ps : JSRef (list Player.t))
  : Snapshot :=
  {| tajribaConnected := tajribaConnected s;
     participantConnected := participantConnected s;
     globals := globals s;
     player := player s;
     game := game s;
     connecting := connecting s;
     hasPlayer := hasPlayer s;
     consented := consented s;
     players := ps;
     stage := stage s;
     round := round s;
     search := search s |}.

(** * Properties *)

(** ** The attribute store *)

Lemma get_set_eq p k v : Player.get (Player.set p k v) k = v.
Proof.
  unfold Player.get, Player.set; simpl. by rewrite lookup_insert_eq.
Qed.

Lemma get_set_ne p k k' v :
  k ≠ k' → Player.get (Player.set p k v) k' = Player.get p k'.
Proof.
  intros Hne. unfold Player.get, Player.set; simpl.
  by rewrite lookup_insert_ne.
Qed.

Lemma placed_set p k v : placed (Player.set p k v) = placed p.
Proof. reflexivity. Qed.

Lemma optget_setIdentity_ne s k k' v :
  k ≠ k' → optget (player (setIdentity s k v)) k' = optget (player s) k'.
Proof.
  intros Hne. unfold setIdentity.
  destruct (player s) as [| |p] eqn:Hp; simpl; rewrite ?Hp; try done.
  by apply get_set_ne.
Qed.

(** ** The readiness predicate *)

Lemma everyPlaced_forallb ps : everyPlaced ps = forallb placed ps.
Proof.
  induction ps as [|p ps IH]; simpl; [done|].
  rewrite IH. by destruct (placed p).
Qed.

Lemma placed_refs p :
  placed p = true ↔
  present (Player.game p) = true ∧ present (Player.round p) = true
  ∧ present (Player.stage p) = true.
Proof.
  unfold placed. rewrite !andb_true_iff. tauto.
Qed.

Lemma everyPlaced_Forall ps :
  everyPlaced ps = true ↔
  Forall (λ m, present (Player.game m) = true
               ∧ present (Player.round m) = true
               ∧ present (Player.stage m) = true) ps.
Proof.
  rewrite everyPlaced_forallb, forallb_forall, Forall_forall.
  split; intros H m Hm.
  - apply placed_refs, H. by apply list_elem_of_In.
  - apply placed_refs, H. by apply list_elem_of_In.
Qed.

Lemma useAllReady_throws s :
  useAllReady s = TypeError ↔ readsAbsentTreatment s = true.
Proof.
  unfold useAllReady, readsAbsentTreatment.
  destruct (player s) as [| |p], (players s) as [| |ps],
    (stage s), (round s), (game s) as [| |g]; simpl; try done.
  destruct (placed p); simpl; [|done].
  destruct (Game.treatment g) as [| |t]; simpl; try done.
  by destruct (lengthBelow _ _).
Qed.

Lemma useAllReady_setIdentity s k v :
  useAllReady (setIdentity s k v) = useAllReady s.
Proof.
  unfold setIdentity. destruct (player s) as [| |p] eqn:Hp; try done.
  unfold useAllReady; simpl. by rewrite Hp, placed_set.
Qed.

(** C2. The readiness predicate answers false whenever the player set is
    smaller than the treatment's [playerCount]; it answers true only when
    identity, player set, stage, round and game are present, the identity
    and every member of the player set have their game, round and stage
    references, and the player set is at least [playerCount] large; and
    any absence among identity, player set, stage, round, game or the
    identity's own references makes it answer false. *)
Theorem useAllReady_headcount (s : Snapshot) :
  (∀ g t n ps,
      game s = Obj g → Game.treatment g = Obj t →
      Treatment.playerCount t = Some n → players s = Obj ps →
      (Z.of_nat (List.length ps) < n)%Z →
      useAllReady s = Normal false)
  ∧ (useAllReady s = Normal true →
     ∃ p ps g t,
       player s = Obj p ∧ players s = Obj ps ∧ game s = Obj g
       ∧ present (stage s) = true ∧ present (round s) = true
       ∧ present (Player.game p) = true ∧ present (Player.round p) = true
       ∧ present (Player.stage p) = true
       ∧ Game.treatment g = Obj t
       ∧ (∀ n, Treatment.playerCount t = Some n →
               (n ≤ Z.of_nat (List.length ps))%Z)
       ∧ Forall (λ m, present (Player.game m) = true
                      ∧ present (Player.round m) = true
                      ∧ present (Player.stage m) = true) ps)
  ∧ (present (player s) = false ∨ present (players s) = false
     ∨ present (stage s) = false ∨ present (round s) = false
     ∨ present (game s) = false
     ∨ (∃ p, player s = Obj p
             ∧ (present (Player.game p) = false
                ∨ present (Player.round p) = false
                ∨ present (Player.stage p) = false)) →
     useAllReady s = Normal false).
Proof.
  split; [|split].
  - intros g t n ps Hg Ht Hn Hps Hlt. unfold useAllReady.
    rewrite Hg, Hps.
    destruct (player s) as [| |p], (stage s), (round s); try done.
    destruct (placed p); simpl; [|done].
    rewrite Ht; simpl. rewrite Hn; simpl.
    apply Z.ltb_lt in Hlt. by rewrite Hlt.
  - unfold useAllReady.
    destruct (player s) as [| |p], (players s) as [| |ps],
      (stage s), (round s), (game s) as [| |g]; simpl; try done.
    destruct (placed p) eqn:Hp; simpl; [|done].
    destruct (Game.treatment g) as [| |t] eqn:Ht; simpl; try done.
    destruct (lengthBelow _ _) eqn:Hlen; simpl; [done|].
    intros [= Hall]. apply placed_refs in Hp as (? & ? & ?).
    exists p, ps, g, t. repeat split; try done.
    + intros n Hn. rewrite Hn in Hlen. simpl in Hlen.
      apply Z.ltb_ge in Hlen. lia.
    + by apply everyPlaced_Forall.
  - intros H. unfold useAllReady.
    destruct (player s) as [| |p], (players s) as [| |ps],
      (stage s), (round s), (game s) as [| |g]; simpl; try done;
      simpl in H.
    destruct (placed p) eqn:Hp; simpl; [|done].
    apply placed_refs in Hp as (Hg & Hr & Hs).
    destruct H as [|[|[|[|[|(q & [= <-] & H)]]]]]; try done.
    rewrite Hg, Hr, Hs in H. by destruct H as [|[|]].
Qed.

Lemma useAllReady_headcount_witness :
  useAllReady (session true alice (Obj (runningGame false (Obj pairs))) [alice])
  = Normal false.
Proof.
  apply (proj1 (useAllReady_headcount _)
           (runningGame false (Obj pairs)) pairs 2%Z [alice]);
    reflexivity.
Defined.

(** C8. The headcount read is unguarded: with identity, player set,
    stage, round and game present and the identity placed, a game
    without a treatment makes the readiness predicate throw. *)
Theorem useAllReady_absent_treatment s p ps g :
  player s = Obj p → players s = Obj ps →
  present (stage s) = true → present (round s) = true →
  game s = Obj g →
  present (Player.game p) = true → present (Player.round p) = true →
  present (Player.stage p) = true →
  present (Game.treatment g) = false →
  useAllReady s = TypeError.
Proof.
  intros Hp Hps Hst Hrd Hg Hpg Hpr Hpst Ht.
  apply useAllReady_throws. unfold readsAbsentTreatment.
  rewrite Hp, Hps, Hg.
  destruct (stage s), (round s); try done.
  rewrite Ht. unfold placed. by rewrite Hpg, Hpr, Hpst.
Qed.

Lemma useAllReady_absent_treatment_witness :
  useAllReady (session true alice (Obj (runningGame false Undefined)) [alice])
  = TypeError.
Proof.
  by apply (useAllReady_absent_treatment _ alice [alice]
              (runningGame false Undefined)).
Defined.

(** C9. With a treatment whose [playerCount] is undefined the size
    check never fails: the comparison is false for every length, the
    readiness predicate is decided by the presence checks and the
    members' references alone, and it answers true for player sets of
    every size. *)
Theorem useAllReady_undefined_headcount s g t :
  game s = Obj g → Game.treatment g = Obj t →
  Treatment.playerCount t = None →
  (∀ len, lengthBelow len (Treatment.playerCount t) = false)
  ∧ useAllReady s = Normal (allPlaced s)
  ∧ (∀ n : nat, ∃ s' ps,
        game s' = game s ∧ players s' = Obj ps ∧ List.length ps = n
        ∧ useAllReady s' = Normal true).
Proof.
  intros Hg Ht Hn. split; [|split].
  - intros len. by rewrite Hn.
  - unfold useAllReady, allPlaced. rewrite Hg.
    destruct (player s) as [| |p], (players s) as [| |ps],
      (stage s), (round s); simpl; try done.
    destruct (placed p); simpl; [|done].
    rewrite Ht; simpl. rewrite Hn; simpl.
    by rewrite everyPlaced_forallb.
  - intros n. exists (populate s alice (replicate n alice)), (replicate n alice).
    repeat split; [by rewrite length_replicate|].
    unfold useAllReady; simpl. rewrite Hg; simpl. rewrite Ht; simpl.
    rewrite Hn; simpl. f_equal.
    induction n as [|n IH]; [done|]. simpl. exact IH.
Qed.

Lemma useAllReady_undefined_headcount_witness :
  useAllReady (session true alice (Obj (runningGame false (Obj uncounted))) [])
  = Normal true.
Proof.
  pose proof (useAllReady_undefined_headcount
                (session true alice (Obj (runningGame false (Obj uncounted))) [])
                (runningGame false (Obj uncounted)) uncounted
                eq_refl eq_refl eq_refl) as (_ & H & _).
  exact H.
Defined.

(** ** The outer gate *)

Ltac head_guard :=
  match goal with
  | |- (if ?c then _ else _) = _ =>
      destruct c eqn:?; simpl; [reflexivity|]
  end.

(** The outer gate never throws: it returns what the priority list of
    the specification selects, and writes what guard 8 says. *)
Lemma EmpiricaContext_SessionPass pr s :
  EmpiricaContext pr s = Normal (SessionPass pr s).
Proof.
  destruct s as [tc pc gl pl gm cn hp cs pls st rd sr].
  destruct pr as [ug ua dc dn du].
  unfold EmpiricaContext, SessionPass, captures, SessionGate, returns,
    captureAndRoute, gameEndedGuard, setIdentity, optget; simpl.
  generalize (fromEntries (URLSearchParams sr)); intros v.
  head_guard.
  assert (cn = false) as -> by (by destruct tc, cn).
  destruct pl as [| |p], gl as [| |g]; simpl; try reflexivity.
  all: try head_guard.
  all: try head_guard.
  all: destruct dn; simpl; repeat head_guard.
  all: try reflexivity.
  all: rewrite ?get_set_ne by done.
  all: destruct du, (truthy (Player.get p "urlParams")), ua; simpl;
    try reflexivity.
  all: rewrite ?get_set_ne by done.
  all: destruct gm as [| |gm]; simpl; try reflexivity.
  all: destruct (Game.hasEnded gm); simpl; try reflexivity.
  all: match goal with H : truthy (Player.get _ "ended") = _ |- _ =>
         rewrite H end; reflexivity.
Qed.

Lemma game_setIdentity s k v : game (setIdentity s k v) = game s.
Proof. unfold setIdentity. by destruct (player s). Qed.

Lemma SessionGate_setIdentity pr s v :
  SessionGate pr (setIdentity s "urlParams" v) = SessionGate pr s.
Proof.
  unfold SessionGate.
  rewrite (optget_setIdentity_ne s "urlParams" "ended") by done.
  rewrite (optget_setIdentity_ne s "urlParams" "gameID") by done.
  rewrite game_setIdentity.
  unfold setIdentity.
  destruct (player s) eqn:Hp; simpl; rewrite ?Hp; reflexivity.
Qed.

(** The cases of the outer priority list, one goal per [return]. *)
Ltac session_cases :=
  unfold SessionGate, firstMatch;
  repeat match goal with
         | |- context [if ?c then _ else _] => destruct c eqn:?
         end;
  simpl in *.

(** A pass that gets past guard 7 has an identity that has not ended,
    and only the bypass and the game-ended guard are left. *)
Lemma SessionGate_past_loading pr s :
  (120 ≤ line (SessionGate pr s))%nat →
  ∃ p, player s = Obj p ∧ truthy (Player.get p "ended") = false
       ∧ SessionGate pr s
         = if unmanagedAssignment pr then ret_at 127 children
           else if gameHasEnded (game s) then ret_at 132 LoadingComp
           else ret_at 138 IntroSteps.
Proof.
  unfold SessionGate.
  destruct (player s) as [| |p] eqn:Hp; session_cases;
    intros; try lia; try done.
  all: eexists; split; [reflexivity|]; split; try done.
Qed.

Lemma SessionGate_not_135 pr s : line (SessionGate pr s) ≠ 135%nat.
Proof.
  intros H.
  destruct (SessionGate_past_loading pr s) as (p & _ & _ & Heq); [lia|].
  rewrite Heq in H.
  by destruct (unmanagedAssignment pr), (gameHasEnded (game s)).
Qed.

Lemma SessionGate_Exit pr s :
  element (SessionGate pr s) = Exit → line (SessionGate pr s) = 88%nat.
Proof.
  pose proof (SessionGate_not_135 pr s) as H135. revert H135.
  session_cases; done.
Qed.

(** ** The inner gate *)

Lemma innerGate_GameGate pr s ready :
  innerGate pr s ready = GameGate pr s ready.
Proof.
  unfold innerGate, GameGate, gameStatus, gameHasEnded; simpl.
  destruct (game s) as [| |g]; simpl;
    [by destruct (unmanagedGame pr) ..|].
  destruct (truthy (Game.get g "status")); simpl; [|done].
  destruct (Game.hasEnded g); simpl; [|done].
  by destruct (truthy (optget (player s) "ended")).
Qed.

Lemma GameGate_screen pr s ready :
  element (GameGate pr s ready) ≠ IntroSteps.
Proof.
  unfold GameGate, firstMatch.
  repeat match goal with
         | |- context [if ?c then _ else _] => destruct c
         end; done.
Qed.

Lemma EmpiricaInnerContext_setIdentity pr s v :
  EmpiricaInnerContext pr (setIdentity s "urlParams" v)
  = EmpiricaInnerContext pr s.
Proof.
  unfold EmpiricaInnerContext, innerGate.
  rewrite useAllReady_setIdentity, game_setIdentity.
  by rewrite (optget_setIdentity_ne s "urlParams" "ended").
Qed.

(** ** One evaluation pass *)

Lemma render_cascade pr s :
  render pr s =
  match element (SessionGate pr s) with
  | IntroSteps => ready ← useAllReady s; mret (GameGate pr s ready)
  | _ => mret (SessionGate pr s)
  end.
Proof.
  unfold render. rewrite EmpiricaContext_SessionPass. simpl.
  destruct (element (SessionGate pr s)); try reflexivity.
  destruct (captures pr s); rewrite ?EmpiricaInnerContext_setIdentity;
    unfold EmpiricaInnerContext;
    destruct (useAllReady s); simpl; by rewrite ?innerGate_GameGate.
Qed.

(** C1, as amended.  On every snapshot but those where the outer gate
    hands over and the readiness predicate then reads the headcount of
    a game without treatment, one pass of the outer gate, followed by
    the inner gate when the outer one hands over, returns exactly one
    screen: the screen of the first guard that holds in the priority
    list of the outer gate or, on a hand-over, of the inner gate. *)
Theorem render_one_screen pr s :
  (∀ o, EmpiricaContext pr s = Normal o →
        element (returned o) = IntroSteps →
        readsAbsentTreatment s = false) →
  ∃ o r, EmpiricaContext pr s = Normal o
         ∧ returned o = SessionGate pr s
         ∧ render pr s = Normal r
         ∧ (∀ r', render pr s = Normal r' → r' = r)
         ∧ element r ≠ IntroSteps
         ∧ (element (returned o) ≠ IntroSteps → r = returned o)
         ∧ (element (returned o) = IntroSteps →
            ∃ ready, useAllReady s = Normal ready
                     ∧ r = GameGate pr s ready).
Proof.
  intros Hread.
  specialize (Hread (SessionPass pr s) (EmpiricaContext_SessionPass pr s)).
  simpl in Hread.
  exists (SessionPass pr s). rewrite render_cascade. simpl.
  destruct (element (SessionGate pr s)) eqn:Hel; simpl.
  9: { destruct (useAllReady s) as [ready|] eqn:Hready.
       2: { apply useAllReady_throws in Hready.
            rewrite Hread in Hready; done. }
       exists (GameGate pr s ready). simpl.
       split; [apply EmpiricaContext_SessionPass|].
       split_and!; try done.
       - by intros r' [= <-].
       - apply GameGate_screen.
       - intros _. by exists ready. }
  all: exists (SessionGate pr s);
    (split; [apply EmpiricaContext_SessionPass|]);
    split_and!; try done; [by intros r' [= <-] | by rewrite Hel].
Qed.

Lemma render_one_screen_witness :
  readsAbsentTreatment
    (session true alice (Obj (runningGame true Undefined)) [alice]) = true
  ∧ ∃ o r,
      EmpiricaContext defaults
        (session true alice (Obj (runningGame true Undefined)) [alice])
      = Normal o
      ∧ render defaults
          (session true alice (Obj (runningGame true Undefined)) [alice])
        = Normal r
      ∧ r = returned o.
Proof.
  split; [reflexivity|].
  destruct (render_one_screen defaults
              (session true alice (Obj (runningGame true Undefined)) [alice]))
    as (o & r & Ho & Hgate & Hr & _ & _ & Hsame & _).
  - intros o Ho Hel. vm_compute in Ho. injection Ho as <-.
    discriminate Hel.
  - exists o, r. split; [exact Ho|]. split; [exact Hr|].
    apply Hsame. rewrite Hgate. discriminate.
Defined.

(** C1, as stated, fails: with a game that carries no treatment the
    outer gate hands over and the inner gate throws, so the pass
    returns no screen. *)
Lemma render_throws_without_treatment :
  render defaults
    (session true alice (Obj (runningGame false Undefined)) [alice])
  = TypeError
  ∧ ¬ ∃ r, render defaults
             (session true alice (Obj (runningGame false Undefined)) [alice])
           = Normal r.
Proof.
  assert (render defaults
            (session true alice (Obj (runningGame false Undefined)) [alice])
          = TypeError) as H by (vm_compute; reflexivity).
  split; [exact H|]. intros [r Hr]. congruence.
Qed.

(** ** Terminal state *)

(** C3, as amended.  For an identity whose [ended] is true the outer
    gate returns Exit on every snapshot in which the transport is
    connected and identity resolution is not in progress, and
    Connecting on the others; it writes nothing, and never shows
    Loading, Consent, NoGames, CreateIdentity, Lobby or the contents. *)
Theorem ended_identity_exits pr s p :
  player s = Obj p → truthy (Player.get p "ended") = true →
  EmpiricaContext pr s
  = Normal {| returned :=
                if negb (tajribaConnected s) || connecting s
                then ret_at 84 ConnectingComp else ret_at 88 Exit;
              writes := [];
              after := s |}
  ∧ render pr s
    = Normal (if negb (tajribaConnected s) || connecting s
              then ret_at 84 ConnectingComp else ret_at 88 Exit)
  ∧ (∀ o, EmpiricaContext pr s = Normal o →
          element (returned o) ≠ LoadingComp
          ∧ element (returned o) ≠ ConsentComp
          ∧ element (returned o) ≠ NoGamesComp
          ∧ (∀ c, element (returned o) ≠ PlayerCreateForm c)
          ∧ element (returned o) ≠ Lobby
          ∧ element (returned o) ≠ children
          ∧ element (returned o) ≠ IntroSteps).
Proof.
  intros Hp Hended.
  assert (EmpiricaContext pr s
          = Normal {| returned :=
                        if negb (tajribaConnected s) || connecting s
                        then ret_at 84 ConnectingComp else ret_at 88 Exit;
                      writes := [];
                      after := s |}) as H.
  { unfold EmpiricaContext, returns. rewrite Hp, Hended.
    by destruct (negb (tajribaConnected s) || connecting s). }
  split; [exact H|]. split.
  - unfold render. rewrite H. simpl.
    by destruct (negb (tajribaConnected s) || connecting s).
  - intros o Ho. rewrite H in Ho. injection Ho as <-. simpl.
    by destruct (negb (tajribaConnected s) || connecting s).
Qed.

Lemma ended_identity_exits_witness :
  render defaults (session true aliceEnded Null []) = Normal (ret_at 88 Exit).
Proof.
  exact (proj1 (proj2 (ended_identity_exits defaults
                         (session true aliceEnded Null []) aliceEnded
                         eq_refl eq_refl))).
Defined.

(** C3, as stated, fails: an identity that has ended, on a snapshot
    whose transport is not connected, is shown Connecting, neither Exit
    nor Loading. *)
Lemma ended_identity_sees_connecting :
  truthy (Player.get aliceEnded "ended") = true
  ∧ EmpiricaContext defaults (session false aliceEnded Null [])
    = Normal {| returned := ret_at 84 ConnectingComp;
                writes := [];
                after := session false aliceEnded Null [] |}.
Proof. split; reflexivity. Qed.

(** ** Unmanaged assignment *)

(** C4.  Under [unmanagedAssignment] alone, a connected, consented
    identity whose game is null is shown Loading by line 117; the
    contents are not rendered. *)
Theorem unmanagedAssignment_waits_for_game :
  EmpiricaContext unmanagedAssignmentOnly (session true alice Null [])
  = Normal {| returned := ret_at 117 LoadingComp;
              writes := [];
              after := session true alice Null [] |}.
Proof. reflexivity. Qed.

(** ** The game-ended guards *)

(** C5.  With the game present and [hasEnded] true, the gates return
    Loading while the identity's [ended] is not true and Exit once it
    is.  The outer gate does so on every snapshot that gets past its
    earlier guards: Loading from line 132 while [ended] is falsy, Exit
    from line 88 once it is truthy.  The inner gate does so past its
    lobby guard, whenever the readiness predicate returns.  The code of
    the two guards has both branches. *)
Theorem gameEnded_guards pr s p g ready :
  game s = Obj g → Game.hasEnded g = true →
  gameEndedGuard p (game s)
  = (if truthy (Player.get p "ended") then ret_at 135 Exit
     else ret_at 132 LoadingComp)
  ∧ (truthy (Game.get g "status") = true →
     innerGate pr s ready
     = if truthy (optget (player s) "ended") then ret_at 191 Exit
       else ret_at 188 LoadingComp)
  ∧ (∀ o, EmpiricaContext pr s = Normal o →
          (130 ≤ line (returned o))%nat →
          returned o = ret_at 132 LoadingComp)
  ∧ (∀ q, player s = Obj q →
          tajribaConnected s = true → connecting s = false →
          present (globals s) = true →
          hasPlayer s = true → participantConnected s = true →
          (disableNoGames pr = true ∨ experimentOpen (globals s) = true
           ∨ truthy (Player.get q "gameID") = true) →
          (disableConsent pr = true ∨ consented s = true) →
          unmanagedAssignment pr = false →
          truthy (Player.get q "ended") = false →
          ∃ o, EmpiricaContext pr s = Normal o
               ∧ returned o = ret_at 132 LoadingComp)
  ∧ (∀ q, player s = Obj q →
          tajribaConnected s = true → connecting s = false →
          truthy (Player.get q "ended") = true →
          ∃ o, EmpiricaContext pr s = Normal o
               ∧ returned o = ret_at 88 Exit)
  ∧ (truthy (Game.get g "status") = true →
     readsAbsentTreatment s = false →
     EmpiricaInnerContext pr s
     = Normal (if truthy (optget (player s) "ended") then ret_at 191 Exit
               else ret_at 188 LoadingComp)).
Proof.
  intros Hg Hended. split_and!.
  - unfold gameEndedGuard, gameHasEnded. rewrite Hg, Hended.
    by destruct (truthy (Player.get p "ended")).
  - intros Hstatus. unfold innerGate. rewrite Hg, Hstatus, Hended; simpl.
    by destruct (truthy (optget (player s) "ended")).
  - intros o Ho Hline. rewrite EmpiricaContext_SessionPass in Ho.
    injection Ho as <-. simpl in *.
    destruct (SessionGate_past_loading pr s) as (q & _ & _ & Heq); [lia|].
    rewrite Heq in *. unfold gameHasEnded in *. rewrite Hg, Hended in *.
    destruct (unmanagedAssignment pr); simpl in *; [lia|done].
  - intros q Hq Htc Hcn Hgl Hhp Hpc Hng Hcs Hua Hq_ended.
    exists (SessionPass pr s).
    split; [apply EmpiricaContext_SessionPass|]. simpl.
    unfold SessionGate, firstMatch, gameHasEnded.
    rewrite Htc, Hcn, Hgl, Hhp, Hpc, Hq, Hg, Hua, Hended; simpl.
    rewrite Hq_ended; simpl.
    assert (negb (disableNoGames pr) && negb (experimentOpen (globals s))
            && negb (truthy (Player.get q "gameID")) = false) as ->.
    { destruct Hng as [->|[->| ->]]; simpl; by rewrite ?andb_false_r. }
    assert (negb (disableConsent pr) && negb (consented s) = false) as ->.
    { destruct Hcs as [->| ->]; simpl; by rewrite ?andb_false_r. }
    by rewrite andb_false_r.
  - intros q Hq Htc Hcn Hq_ended.
    exists (SessionPass pr s).
    split; [apply EmpiricaContext_SessionPass|]. simpl.
    unfold SessionGate, firstMatch.
    rewrite Htc, Hcn, Hq; simpl. by rewrite Hq_ended.
  - intros Hstatus Hread. unfold EmpiricaInnerContext.
    destruct (useAllReady s) as [b|] eqn:Hready.
    2: { apply useAllReady_throws in Hready. congruence. }
    simpl. f_equal. unfold innerGate.
    rewrite Hg, Hstatus, Hended; simpl.
    by destruct (truthy (optget (player s) "ended")).
Qed.

Lemma gameEnded_guards_witness :
  (∃ o, EmpiricaContext defaults
          (session true alice (Obj (runningGame true (Obj pairs))) [alice])
        = Normal o
        ∧ returned o = ret_at 132 LoadingComp)
  ∧ (∃ o, EmpiricaContext defaults
            (session true aliceEnded (Obj (runningGame true (Obj pairs)))
               [alice])
          = Normal o
          ∧ returned o = ret_at 88 Exit)
  ∧ EmpiricaInnerContext defaults
      (session true alice (Obj (runningGame true (Obj pairs))) [alice])
    = Normal (ret_at 188 LoadingComp)
  ∧ EmpiricaInnerContext defaults
      (session true aliceEnded (Obj (runningGame true (Obj pairs))) [alice])
    = Normal (ret_at 191 Exit).
Proof.
  destruct (gameEnded_guards defaults
              (session true alice (Obj (runningGame true (Obj pairs)))
                 [alice])
              alice (runningGame true (Obj pairs)) false eq_refl eq_refl)
    as (_ & _ & _ & Hloading & _ & Hinner).
  destruct (gameEnded_guards defaults
              (session true aliceEnded (Obj (runningGame true (Obj pairs)))
                 [alice])
              aliceEnded (runningGame true (Obj pairs)) false
              eq_refl eq_refl)
    as (_ & _ & _ & _ & Hexit & Hinner').
  split_and!.
  - apply (Hloading alice); try reflexivity.
    + right. left. reflexivity.
    + right. reflexivity.
  - apply (Hexit aliceEnded); reflexivity.
  - exact (Hinner eq_refl eq_refl).
  - exact (Hinner' eq_refl eq_refl).
Defined.

(** ** URL parameters *)

Lemma captures_set pr s v :
  captures pr (setIdentity s "urlParams" (fromEntries v)) = false.
Proof.
  unfold captures. rewrite SessionGate_setIdentity.
  destruct (120 <=? line (SessionGate pr s))%nat eqn:Hline; [|done].
  apply Nat.leb_le in Hline.
  destruct (SessionGate_past_loading pr s Hline) as (p & Hp & _).
  unfold setIdentity. rewrite Hp; simpl. rewrite get_set_eq; simpl.
  by rewrite !andb_false_r.
Qed.

Lemma SessionPass_again pr s v :
  SessionPass pr (setIdentity s "urlParams" (fromEntries v))
  = {| returned := SessionGate pr s;
       writes := [];
       after := setIdentity s "urlParams" (fromEntries v) |}.
Proof.
  unfold SessionPass. by rewrite captures_set, SessionGate_setIdentity.
Qed.

(** C6.  A pass that gets to the capture step with capture enabled and
    no [urlParams] on the identity writes the parsed query string, once,
    under [urlParams] ([?a=1&b=2] parses to [{a: "1", b: "2"}]); a pass
    that finds [urlParams] set writes nothing; the screen is the one a
    pass without capture returns; and a second pass on the snapshot the
    first one left writes nothing and returns the same screen. *)
Theorem urlParams_capture pr s o :
  EmpiricaContext pr s = Normal o →
  ((120 ≤ line (returned o))%nat →
   disableURLParamsCapture pr = false →
   truthy (optget (player s) "urlParams") = false →
   writes o = [("urlParams", fromEntries (URLSearchParams (search s)))]
   ∧ optget (player (after o)) "urlParams"
     = fromEntries (URLSearchParams (search s)))
  ∧ fromEntries (URLSearchParams "?a=1&b=2")
    = JObj {[ "a" := JStr "1"; "b" := JStr "2" ]}
  ∧ (truthy (optget (player s) "urlParams") = true →
     writes o = [] ∧ after o = s)
  ∧ (List.length (writes o) ≤ 1)%nat
  ∧ (∃ o0, EmpiricaContext (without_capture pr) s = Normal o0
           ∧ writes o0 = [] ∧ returned o0 = returned o)
  ∧ (∃ o', EmpiricaContext pr (after o) = Normal o'
           ∧ writes o' = [] ∧ after o' = after o
           ∧ returned o' = returned o).
Proof.
  rewrite EmpiricaContext_SessionPass. intros [= <-]. simpl.
  split; [|split; [|split; [|split; [|split]]]].
  - intros Hline Hdu Hurl. unfold captures.
    apply Nat.leb_le in Hline. rewrite Hline, Hdu, Hurl; simpl.
    split; [done|].
    destruct (SessionGate_past_loading pr s) as (p & Hp & _);
      [by apply Nat.leb_le|].
    unfold setIdentity. rewrite Hp; simpl. apply get_set_eq.
  - reflexivity.
  - intros Hurl. unfold captures. rewrite Hurl, !andb_false_r. done.
  - destruct (captures pr s); simpl; lia.
  - exists (SessionPass (without_capture pr) s).
    rewrite EmpiricaContext_SessionPass. repeat split.
    unfold SessionPass, captures; simpl. by rewrite andb_false_r.
  - destruct (captures pr s) eqn:Hc.
    + eexists. rewrite EmpiricaContext_SessionPass, SessionPass_again.
      split; [reflexivity|]. done.
    + exists (SessionPass pr s). rewrite EmpiricaContext_SessionPass.
      unfold SessionPass. rewrite Hc. done.
Qed.

Lemma urlParams_capture_witness :
  ∃ o, EmpiricaContext defaults
         (session true alice (Obj (runningGame false (Obj pairs))) [alice])
       = Normal o
       ∧ writes o
         = [("urlParams", JObj {[ "a" := JStr "1"; "b" := JStr "2" ]})].
Proof.
  eexists. split; [reflexivity|].
  exact (proj1 (proj1 (urlParams_capture defaults
           (session true alice (Obj (runningGame false (Obj pairs))) [alice])
           _ eq_refl) ltac:(simpl; lia) eq_refl eq_refl)).
Defined.

(** ** The NoGames screen *)

(** C7.  With [disableNoGames] the outer gate returns, and what it
    returns is never the NoGames screen. *)
Theorem disableNoGames_never_NoGames pr s :
  disableNoGames pr = true →
  ∃ o, EmpiricaContext pr s = Normal o
       ∧ element (returned o) ≠ NoGamesComp.
Proof.
  intros Hdn. exists (SessionPass pr s).
  split; [apply EmpiricaContext_SessionPass|]. simpl.
  unfold SessionGate. rewrite Hdn; simpl.
  unfold firstMatch.
  repeat match goal with
         | |- context [if ?c then _ else _] => destruct c
         end; done.
Qed.

Lemma disableNoGames_never_NoGames_witness :
  ∃ o, EmpiricaContext noGamesDisabled visitorWhenClosed = Normal o
       ∧ element (returned o) ≠ NoGamesComp.
Proof.
  exact (disableNoGames_never_NoGames noGamesDisabled visitorWhenClosed
           eq_refl).
Defined.

(** ** The unreachable Exit *)

(** C10.  No pass of the outer gate returns from line 135: a pass that
    gets to the game-ended guard has an identity whose [ended] is
    false, so the guard returns Loading whenever the game has ended,
    and an Exit of the outer gate is the one of line 88. *)
Theorem gameEnded_exit_unreachable pr s o :
  EmpiricaContext pr s = Normal o →
  line (returned o) ≠ 135%nat
  ∧ ((130 ≤ line (returned o))%nat →
     ∃ p, player (after o) = Obj p
          ∧ truthy (Player.get p "ended") = false
          ∧ returned o = gameEndedGuard p (game s)
          ∧ (gameHasEnded (game s) = true →
             returned o = ret_at 132 LoadingComp))
  ∧ (element (returned o) = Exit → line (returned o) = 88%nat).
Proof.
  rewrite EmpiricaContext_SessionPass. intros [= <-]. simpl.
  split; [apply SessionGate_not_135|].
  split; [|apply SessionGate_Exit].
  intros Hline.
  destruct (SessionGate_past_loading pr s) as (p & Hp & Hended & Heq);
    [lia|].
  assert (unmanagedAssignment pr = false) as Hua.
  { destruct (unmanagedAssignment pr); [|done].
    rewrite Heq in Hline. simpl in Hline. lia. }
  rewrite Hua in Heq.
  assert (∀ q, truthy (Player.get q "ended") = false →
               SessionGate pr s = gameEndedGuard q (game s)) as Hguard.
  { intros q Hq. unfold gameEndedGuard. by rewrite Hq. }
  destruct (captures pr s).
  - unfold setIdentity. rewrite Hp; simpl.
    eexists. split; [reflexivity|].
    rewrite get_set_ne by done.
    split; [done|]. split.
    + apply Hguard. by rewrite get_set_ne.
    + intros Hge. by rewrite Heq, Hge.
  - exists p. repeat split; try done.
    + by apply Hguard.
    + intros Hge. by rewrite Heq, Hge.
Qed.

Lemma gameEnded_exit_unreachable_witness :
  ∃ o, EmpiricaContext defaults
         (session true alice (Obj (runningGame true (Obj pairs))) [alice])
       = Normal o
       ∧ returned o = ret_at 132 LoadingComp.
Proof.
  exists (SessionPass defaults
            (session true alice (Obj (runningGame true (Obj pairs)))
               [alice])).
  split; [reflexivity|].
  destruct (gameEnded_exit_unreachable defaults
              (session true alice (Obj (runningGame true (Obj pairs)))
                 [alice]) _ eq_refl) as (_ & H & _).
  destruct H as (p & _ & _ & _ & H);
    [apply Nat.leb_le; reflexivity | exact (H eq_refl)].
Defined.

(** * Further properties of the gates *)

(** ** What the guards a pass went through say about the snapshot *)

Ltac bool_hyps :=
  repeat match goal with
         | H : _ || _ = false |- _ => apply orb_false_iff in H; destruct H
         | H : negb _ = false |- _ => apply negb_false_iff in H
         | H : negb _ = true |- _ => apply negb_true_iff in H
         | H : _ && _ = true |- _ => apply andb_true_iff in H; destruct H
         | H : _ && _ = false |- _ => apply andb_false_iff in H; destruct H
         | H : _ || _ = true |- _ => apply orb_true_iff in H; destruct H
         end.

(** The guards before the capture step, all passed. *)
Lemma SessionGate_past_funnel pr s :
  (120 ≤ line (SessionGate pr s))%nat →
  tajribaConnected s = true ∧ connecting s = false
  ∧ present (globals s) = true ∧ hasPlayer s = true
  ∧ participantConnected s = true ∧ isUndefined (game s) = false
  ∧ (disableConsent pr = true ∨ consented s = true)
  ∧ (unmanagedGame pr = true ∨ present (game s) = true)
  ∧ (disableNoGames pr = true ∨ experimentOpen (globals s) = true
     ∨ truthy (optget (player s) "gameID") = true).
Proof.
  intros H. unfold SessionGate, firstMatch in H.
  repeat match type of H with
         | context [if ?c then _ else _] =>
             destruct c eqn:?; simpl in H; try lia
         end.
  all: bool_hyps; try congruence.
  all: repeat split; auto.
Qed.

Lemma captures_reaches pr s :
  captures pr s = true →
  (120 ≤ line (SessionGate pr s))%nat
  ∧ disableURLParamsCapture pr = false
  ∧ truthy (optget (player s) "urlParams") = false.
Proof.
  unfold captures. intros H. bool_hyps.
  repeat split; try done. by apply Nat.leb_le.
Qed.

Lemma SessionPass_quiet pr s :
  (line (SessionGate pr s) < 120)%nat →
  SessionPass pr s
  = {| returned := SessionGate pr s; writes := []; after := s |}.
Proof.
  intros Hline. unfold SessionPass.
  destruct (captures pr s) eqn:Hc; [|done].
  apply captures_reaches in Hc as (? & _). lia.
Qed.

(** Facts about the snapshot from what the outer priority list chose. *)
Ltac guard_facts H :=
  unfold SessionGate, firstMatch in H;
  repeat match type of H with
         | context [if ?c then _ else _] =>
             destruct c eqn:?; simpl in H; try done; try lia
         end;
  bool_hyps; try congruence.

(** The outer gate hands over only from line 138, with the bypass off
    and the game not ended. *)
Lemma SessionGate_hands_over pr s :
  element (SessionGate pr s) = IntroSteps →
  SessionGate pr s = ret_at 138 IntroSteps
  ∧ unmanagedAssignment pr = false
  ∧ gameHasEnded (game s) = false.
Proof.
  intros H.
  assert (120 ≤ line (SessionGate pr s))%nat as Hline.
  { revert H. session_cases; intros; try done; lia. }
  destruct (SessionGate_past_loading pr s Hline) as (p & _ & _ & Heq).
  rewrite Heq in *.
  by destruct (unmanagedAssignment pr), (gameHasEnded (game s)).
Qed.

(** A pass returns what the outer gate chose or, on a hand-over, what
    the inner gate chooses on the same snapshot. *)
Lemma render_inv pr s r :
  render pr s = Normal r →
  (r = SessionGate pr s ∧ element r ≠ IntroSteps)
  ∨ (element (SessionGate pr s) = IntroSteps
     ∧ ∃ ready, useAllReady s = Normal ready ∧ r = innerGate pr s ready).
Proof.
  rewrite render_cascade.
  destruct (element (SessionGate pr s)) eqn:Hel; simpl.
  9: { destruct (useAllReady s) as [ready|]; simpl; [|done].
       intros [= <-]. right. split; [done|]. exists ready.
       by rewrite innerGate_GameGate. }
  all: intros [= <-]; left; by rewrite Hel.
Qed.

(** ** The screens before an identity exists *)

(** X1. The outer gate shows Connecting exactly when the transport is
    not connected or identity resolution is in progress, whatever else
    the snapshot and the props hold, and then writes nothing. *)
Theorem ConnectingComp_iff pr s :
  ∃ o, EmpiricaContext pr s = Normal o
       ∧ (element (returned o) = ConnectingComp
          ↔ tajribaConnected s = false ∨ connecting s = true)
       ∧ (element (returned o) = ConnectingComp →
          line (returned o) = 84%nat ∧ writes o = [] ∧ after o = s).
Proof.
  exists (SessionPass pr s). split; [apply EmpiricaContext_SessionPass|].
  split.
  - simpl. split.
    + intros H. guard_facts H; auto.
    + intros H. unfold SessionGate, firstMatch.
      destruct (negb (tajribaConnected s) || connecting s) eqn:E; [done|].
      bool_hyps. destruct H; congruence.
  - intros H. simpl in H.
    assert (line (SessionGate pr s) = 84%nat) as Hline.
    { revert H. session_cases; done. }
    rewrite SessionPass_quiet by lia. done.
Qed.

(** X2. The identity-creation form is shown only to a visitor without
    identity, on a connected transport with the globals loaded, past
    the NoGames and Consent guards; its [connecting] prop is always
    false, and the pass writes nothing. *)
Theorem PlayerCreateForm_only_for_visitors pr s o c :
  EmpiricaContext pr s = Normal o →
  element (returned o) = PlayerCreateForm c →
  c = false ∧ line (returned o) = 111%nat
  ∧ hasPlayer s = false
  ∧ tajribaConnected s = true ∧ connecting s = false
  ∧ present (globals s) = true
  ∧ (disableNoGames pr = true ∨ experimentOpen (globals s) = true)
  ∧ (disableConsent pr = true ∨ consented s = true)
  ∧ writes o = [] ∧ after o = s.
Proof.
  rewrite EmpiricaContext_SessionPass. intros [= <-] H. simpl in H.
  assert (line (SessionGate pr s) = 111%nat) as Hline.
  { revert H. session_cases; done. }
  rewrite SessionPass_quiet by lia. simpl.
  guard_facts H.
  all: injection H as <-; repeat split; auto.
Qed.

Lemma PlayerCreateForm_only_for_visitors_witness :
  hasPlayer consentedVisitor = false
  ∧ writes (SessionPass defaults consentedVisitor) = [].
Proof.
  destruct (PlayerCreateForm_only_for_visitors defaults consentedVisitor
              (SessionPass defaults consentedVisitor) false
              eq_refl eq_refl)
    as (_ & _ & Hhp & _ & _ & _ & _ & _ & Hw & _).
  exact (conj Hhp Hw).
Defined.

(** ** When the contents are rendered *)

(** What the snapshot holds when the outer gate hands over. *)
Lemma hand_over_facts pr s :
  element (SessionGate pr s) = IntroSteps →
  ∃ p, player s = Obj p ∧ truthy (Player.get p "ended") = false
       ∧ unmanagedAssignment pr = false
       ∧ gameHasEnded (game s) = false
       ∧ (unmanagedGame pr = true ∨ present (game s) = true)
       ∧ tajribaConnected s = true ∧ connecting s = false
       ∧ participantConnected s = true ∧ hasPlayer s = true
       ∧ (disableConsent pr = true ∨ consented s = true).
Proof.
  intros H. destruct (SessionGate_hands_over pr s H) as (Heq & Hua & Hge).
  assert (120 ≤ line (SessionGate pr s))%nat as Hline
      by (rewrite Heq; simpl; lia).
  destruct (SessionGate_past_loading pr s Hline) as (p & Hp & Hended & _).
  destruct (SessionGate_past_funnel pr s Hline)
    as (? & ? & ? & ? & ? & ? & ? & ? & ?).
  exists p. split_and!; done.
Qed.

(** X3. With neither [unmanagedGame] nor [unmanagedAssignment], a pass
    renders the contents only from line 195: the readiness predicate
    returned true, the game is started and not ended, and the
    participant is connected and past consent. *)
Theorem contents_only_when_ready pr s r :
  unmanagedGame pr = false → unmanagedAssignment pr = false →
  render pr s = Normal r → element r = children →
  line r = 195%nat
  ∧ useAllReady s = Normal true
  ∧ (∃ g, game s = Obj g ∧ truthy (Game.get g "status") = true
          ∧ Game.hasEnded g = false)
  ∧ tajribaConnected s = true ∧ participantConnected s = true
  ∧ (disableConsent pr = true ∨ consented s = true).
Proof.
  intros Hug Hua Hr Hel.
  destruct (render_inv pr s r Hr) as [[-> _]|(Hover & ready & Hready & ->)].
  - exfalso. guard_facts Hel.
  - destruct (hand_over_facts pr s Hover)
      as (p & Hp & Hended & _ & Hge & Hgame & ? & ? & ? & ? & ?).
    destruct Hgame as [?|Hgame]; [congruence|].
    unfold innerGate in *. unfold gameHasEnded in Hge.
    destruct (game s) as [| |g]; try done.
    rewrite Hge, Hug in *. simpl in *.
    destruct (truthy (Game.get g "status")) eqn:Hstatus; simpl in *;
      [|done].
    destruct ready; simpl in *; [|done].
    split_and!; try done. by exists g.
Qed.

Lemma contents_only_when_ready_witness :
  useAllReady
    (session true alice (Obj (runningGame false (Obj pairs))) [alice; alice])
  = Normal true.
Proof.
  exact (proj1 (proj2 (contents_only_when_ready defaults
           (session true alice (Obj (runningGame false (Obj pairs)))
              [alice; alice])
           (ret_at 195 children) eq_refl eq_refl eq_refl eq_refl))).
Defined.

(** X4. A connected, consented participant who has not ended, past the
    NoGames guard, whose game is started and not ended and for whom
    the readiness predicate returns true, is shown the contents from
    line 195 (the bypass off). *)
Theorem ready_session_renders_contents pr s p g :
  tajribaConnected s = true → connecting s = false →
  present (globals s) = true →
  hasPlayer s = true → participantConnected s = true →
  player s = Obj p → truthy (Player.get p "ended") = false →
  (disableNoGames pr = true ∨ experimentOpen (globals s) = true
   ∨ truthy (Player.get p "gameID") = true) →
  (disableConsent pr = true ∨ consented s = true) →
  unmanagedAssignment pr = false →
  game s = Obj g → Game.hasEnded g = false →
  truthy (Game.get g "status") = true →
  useAllReady s = Normal true →
  render pr s = Normal (ret_at 195 children).
Proof.
  intros Htc Hcn Hgl Hhp Hpc Hp Hended Hng Hcs Hua Hg Hge Hstatus Hready.
  rewrite render_cascade.
  assert (SessionGate pr s = ret_at 138 IntroSteps) as ->.
  { unfold SessionGate, firstMatch, gameHasEnded.
    rewrite Htc, Hcn, Hgl, Hhp, Hpc, Hp, Hg, Hua, Hge; simpl.
    rewrite Hended; simpl.
    assert (negb (disableNoGames pr) && negb (experimentOpen (globals s))
            && negb (truthy (Player.get p "gameID")) = false) as ->.
    { destruct Hng as [->|[->| ->]]; simpl;
        by rewrite ?andb_false_r. }
    assert (negb (disableConsent pr) && negb (consented s) = false) as ->.
    { destruct Hcs as [->| ->]; simpl; by rewrite ?andb_false_r. }
    by rewrite andb_false_r. }
  simpl. rewrite Hready; simpl. f_equal.
  unfold GameGate, firstMatch, gameStatus, gameHasEnded.
  rewrite Hg, Hge, Hstatus; simpl. by rewrite orb_true_r.
Qed.

Lemma ready_session_renders_contents_witness :
  render defaults
    (session true alice (Obj (runningGame false (Obj pairs))) [alice; alice])
  = Normal (ret_at 195 children).
Proof.
  apply (ready_session_renders_contents _ _ alice
           (runningGame false (Obj pairs))); try reflexivity.
  - right. left. reflexivity.
  - right. reflexivity.
Defined.

(** ** Returns no pass takes *)

(** X5. Within one pass on one snapshot the inner gate never returns
    from its lines 178, 188 and 191: on a hand-over the game is present
    or unmanaged and has not ended, so every Exit a pass returns is the
    one of line 88 and every wait for a game that has ended is the one
    of line 132. *)
Theorem render_dead_returns pr s r :
  render pr s = Normal r →
  line r ≠ 178%nat ∧ line r ≠ 188%nat ∧ line r ≠ 191%nat
  ∧ (element r = Exit → line r = 88%nat)
  ∧ (gameHasEnded (game s) = true → element r = LoadingComp →
     (line r ≤ 132)%nat).
Proof.
  intros Hr.
  destruct (render_inv pr s r Hr) as [[-> _]|(Hover & ready & _ & ->)].
  - split; [|split; [|split; [|split]]].
    1-3: session_cases; done.
    + apply SessionGate_Exit.
    + intros _. session_cases; intros; try done; lia.
  - destruct (hand_over_facts pr s Hover)
      as (p & _ & _ & _ & Hge & Hgame & _).
    unfold innerGate, gameHasEnded in *.
    destruct (game s) as [| |g]; simpl in *.
    1-2: destruct Hgame as [->|]; done.
    rewrite Hge.
    destruct (truthy (Game.get g "status")),
      (unmanagedGame pr || ready); done.
Qed.

Lemma render_dead_returns_witness :
  render defaults
    (session true alice (Obj (runningGame true (Obj pairs))) [alice])
  = Normal (ret_at 132 LoadingComp)
  ∧ line (ret_at 132 LoadingComp) ≠ 188%nat.
Proof.
  split; [reflexivity|].
  exact (proj1 (proj2 (render_dead_returns defaults
           (session true alice (Obj (runningGame true (Obj pairs))) [alice])
           (ret_at 132 LoadingComp) eq_refl))).
Defined.

(** ** Unmanaged games *)

(** X6. With [unmanagedGame] the inner gate's screen does not depend on
    the readiness predicate and is never the Loading of line 178 or
    198; the predicate is evaluated all the same, and the inner gate
    throws exactly when the predicate does. *)
Theorem unmanagedGame_ignores_readiness pr s :
  unmanagedGame pr = true →
  (∀ ready ready', innerGate pr s ready = innerGate pr s ready')
  ∧ (∀ ready, line (innerGate pr s ready) ≠ 178%nat
              ∧ line (innerGate pr s ready) ≠ 198%nat)
  ∧ (EmpiricaInnerContext pr s = TypeError
     ↔ readsAbsentTreatment s = true).
Proof.
  intros Hug. split; [|split].
  - intros ready ready'. unfold innerGate. by rewrite Hug.
  - intros ready. unfold innerGate. rewrite Hug. simpl.
    destruct (game s) as [| |g]; simpl; try done.
    destruct (truthy (Game.get g "status")), (Game.hasEnded g),
      (truthy (optget (player s) "ended")); done.
  - rewrite <- useAllReady_throws. unfold EmpiricaInnerContext.
    destruct (useAllReady s); simpl; split; done.
Qed.

Lemma unmanagedGame_ignores_readiness_witness :
  EmpiricaInnerContext unmanagedGameOnly
    (session true alice (Obj (runningGame false Undefined)) [alice])
  = TypeError.
Proof.
  apply (proj2 (proj2 (unmanagedGame_ignores_readiness unmanagedGameOnly
           (session true alice (Obj (runningGame false Undefined)) [alice])
           eq_refl))).
  reflexivity.
Defined.

(** ** The lobby *)

(** X7. A pass shows the Lobby only from line 183, to an identity that
    has not ended, whose game is present, not ended and without a
    truthy [status], the bypass off; with such a game, once the outer
    gate hands over and the readiness predicate returns, the Lobby is
    what the pass shows, also under [unmanagedGame]. *)
Theorem Lobby_only_before_start pr s :
  (∀ r, render pr s = Normal r → element r = Lobby →
        line r = 183%nat
        ∧ unmanagedAssignment pr = false ∧ hasPlayer s = true
        ∧ (∃ p, player s = Obj p ∧ truthy (Player.get p "ended") = false)
        ∧ (∃ g, game s = Obj g ∧ truthy (Game.get g "status") = false
                ∧ Game.hasEnded g = false))
  ∧ (∀ g ready, game s = Obj g → truthy (Game.get g "status") = false →
                element (SessionGate pr s) = IntroSteps →
                useAllReady s = Normal ready →
                render pr s = Normal (ret_at 183 Lobby)).
Proof.
  split.
  - intros r Hr Hel.
    destruct (render_inv pr s r Hr) as [[-> _]|(Hover & ready & _ & ->)].
    { exfalso. guard_facts Hel. }
    destruct (hand_over_facts pr s Hover)
      as (p & Hp & Hended & Hua & Hge & _ & _ & _ & _ & Hhp & _).
    unfold innerGate, gameHasEnded in *.
    destruct (game s) as [| |g]; simpl in *.
    1-2: by destruct (unmanagedGame pr).
    rewrite Hge in *.
    destruct (truthy (Game.get g "status")) eqn:Hstatus; simpl in *.
    { by destruct (unmanagedGame pr || ready). }
    split_and!; try done; [by exists p | by exists g].
  - intros g ready Hg Hstatus Hover Hready.
    rewrite render_cascade, Hover, Hready. simpl. f_equal.
    rewrite <- innerGate_GameGate. unfold innerGate.
    by rewrite Hg, Hstatus.
Qed.

Lemma Lobby_only_before_start_witness :
  render unmanagedGameOnly (session true alice (Obj lobbyGame) [alice])
  = Normal (ret_at 183 Lobby).
Proof.
  exact (proj2 (Lobby_only_before_start unmanagedGameOnly
                  (session true alice (Obj lobbyGame) [alice]))
           lobbyGame false eq_refl eq_refl eq_refl eq_refl).
Defined.

(** ** What the outer gate leaves untouched *)

Lemma with_player_same s : with_player s (player s) = s.
Proof. by destruct s. Qed.

Lemma with_player_setIdentity s k v :
  with_player (setIdentity s k v) (player s) = s.
Proof.
  unfold setIdentity. destruct s as [? ? ? pl ? ? ? ? ? ? ? ?]; simpl.
  by destruct pl.
Qed.

(** X8. The only thing a pass of the outer gate changes is the
    identity's [urlParams]: every other field of the snapshot, every
    other attribute of the identity and its game, round and stage
    references stay as they were.  A write happens only on a pass that
    returns from line 127 or later, with capture enabled and no
    [urlParams] yet; what is written is truthy and is read back.  With
    [disableURLParamsCapture] no pass writes. *)
Theorem outer_gate_frame pr s :
  ∃ o, EmpiricaContext pr s = Normal o
       ∧ with_player (after o) (player s) = s
       ∧ present (player (after o)) = present (player s)
       ∧ (∀ k, k ≠ "urlParams" →
               optget (player (after o)) k = optget (player s) k)
       ∧ (∀ p p', player s = Obj p → player (after o) = Obj p' →
                  Player.game p' = Player.game p
                  ∧ Player.round p' = Player.round p
                  ∧ Player.stage p' = Player.stage p)
       ∧ (∀ k v, (k, v) ∈ writes o →
                 k = "urlParams" ∧ truthy v = true
                 ∧ (127 ≤ line (returned o))%nat
                 ∧ disableURLParamsCapture pr = false
                 ∧ truthy (optget (player s) "urlParams") = false
                 ∧ optget (player (after o)) k = v)
       ∧ (disableURLParamsCapture pr = true → writes o = [] ∧ after o = s)
       ∧ (writes o = [] → after o = s).
Proof.
  exists (SessionPass pr s). split; [apply EmpiricaContext_SessionPass|].
  unfold SessionPass. simpl.
  destruct (captures pr s) eqn:Hc.
  - apply captures_reaches in Hc as (Hline & Hdu & Hurl).
    destruct (SessionGate_past_loading pr s Hline) as (p & Hp & _ & Heq).
    split_and!.
    + apply with_player_setIdentity.
    + unfold setIdentity. by rewrite Hp.
    + intros k Hk. by apply optget_setIdentity_ne.
    + intros q q' Hq. unfold setIdentity. rewrite Hq. simpl.
      by intros [= <-].
    + intros k v Hin. apply list_elem_of_singleton in Hin.
      injection Hin as -> ->. split_and!; try done.
      * rewrite Heq.
        destruct (unmanagedAssignment pr), (gameHasEnded (game s));
          simpl; lia.
      * unfold setIdentity. rewrite Hp. simpl. apply get_set_eq.
    + congruence.
    + done.
  - split_and!; try done.
    + apply with_player_same.
    + intros q q' Hq. rewrite Hq. by intros [= <-].
    + intros k v Hin. by apply elem_of_nil in Hin.
Qed.

(** ** The funnel before an identity exists *)

(** X9. The NoGames screen is shown only on a connected transport with
    the globals loaded, the experiment not open, the screen not
    disabled, and no identity or an identity without [gameID]: an
    assigned identity never sees it, nor does anyone while the
    experiment is open.  It comes before consent, and the pass writes
    nothing. *)
Theorem NoGamesComp_only_when_closed pr s o :
  EmpiricaContext pr s = Normal o →
  element (returned o) = NoGamesComp →
  line (returned o) = 103%nat
  ∧ disableNoGames pr = false
  ∧ tajribaConnected s = true ∧ connecting s = false
  ∧ present (globals s) = true
  ∧ experimentOpen (globals s) = false
  ∧ (hasPlayer s = false ∨ truthy (optget (player s) "gameID") = false)
  ∧ truthy (optget (player s) "ended") = false
  ∧ writes o = [] ∧ after o = s.
Proof.
  rewrite EmpiricaContext_SessionPass. intros [= <-] H. simpl in H.
  assert (line (SessionGate pr s) = 103%nat) as Hline.
  { revert H. session_cases; done. }
  rewrite SessionPass_quiet by lia. simpl.
  guard_facts H.
  all: split_and!; auto.
Qed.

Lemma NoGamesComp_only_when_closed_witness :
  EmpiricaContext defaults visitorWhenClosed
  = Normal (SessionPass defaults visitorWhenClosed)
  ∧ experimentOpen (globals visitorWhenClosed) = false.
Proof.
  split; [reflexivity|].
  destruct (NoGamesComp_only_when_closed defaults visitorWhenClosed
              (SessionPass defaults visitorWhenClosed) eq_refl eq_refl)
    as (_ & _ & _ & _ & _ & H & _).
  exact H.
Defined.

(** X10. The Consent screen is shown only when consent is neither
    given nor disabled, on a connected transport with the globals
    loaded and past the NoGames guard, whether or not an identity
    exists; the pass writes nothing. *)
Theorem ConsentComp_only_when_unconsented pr s o :
  EmpiricaContext pr s = Normal o →
  element (returned o) = ConsentComp →
  line (returned o) = 107%nat
  ∧ disableConsent pr = false ∧ consented s = false
  ∧ tajribaConnected s = true ∧ connecting s = false
  ∧ present (globals s) = true
  ∧ (disableNoGames pr = true ∨ experimentOpen (globals s) = true
     ∨ (hasPlayer s = true
        ∧ truthy (optget (player s) "gameID") = true))
  ∧ writes o = [] ∧ after o = s.
Proof.
  rewrite EmpiricaContext_SessionPass. intros [= <-] H. simpl in H.
  assert (line (SessionGate pr s) = 107%nat) as Hline.
  { revert H. session_cases; done. }
  rewrite SessionPass_quiet by lia. simpl.
  guard_facts H.
  all: split_and!; auto.
Qed.

Lemma ConsentComp_only_when_unconsented_witness :
  EmpiricaContext noGamesDisabled visitorWhenClosed
  = Normal (SessionPass noGamesDisabled visitorWhenClosed)
  ∧ consented visitorWhenClosed = false.
Proof.
  split; [reflexivity|].
  destruct (ConsentComp_only_when_unconsented noGamesDisabled
              visitorWhenClosed
              (SessionPass noGamesDisabled visitorWhenClosed)
              eq_refl eq_refl)
    as (_ & _ & H & _).
  exact H.
Defined.

(** X11. While the globals are not loaded, or an identity is known
    whose channel is not connected, whose record is missing or whose
    game is still undefined, the outer gate shows Connecting, Exit or
    the Loading of line 95, nothing else, and writes nothing. *)
Theorem loading_screens pr s :
  present (globals s) = false
  ∨ (hasPlayer s = true
     ∧ (participantConnected s = false ∨ present (player s) = false
        ∨ isUndefined (game s) = true)) →
  ∃ o, EmpiricaContext pr s = Normal o
       ∧ (returned o = ret_at 84 ConnectingComp
          ∨ returned o = ret_at 88 Exit
          ∨ returned o = ret_at 95 LoadingComp)
       ∧ writes o = [] ∧ after o = s.
Proof.
  intros H.
  assert (negb (present (globals s))
          || hasPlayer s
             && (negb (participantConnected s) || negb (present (player s))
                 || isUndefined (game s)) = true) as Hguard.
  { destruct H as [->|(-> & [->|[->| ->]])]; simpl;
      by rewrite ?orb_true_r. }
  assert (SessionGate pr s = ret_at 84 ConnectingComp
          ∨ SessionGate pr s = ret_at 88 Exit
          ∨ SessionGate pr s = ret_at 95 LoadingComp) as Hret.
  { unfold SessionGate, firstMatch. rewrite Hguard.
    destruct (negb (tajribaConnected s) || connecting s); [by left|].
    destruct (truthy (optget (player s) "ended")); auto. }
  exists (SessionPass pr s). split; [apply EmpiricaContext_SessionPass|].
  rewrite SessionPass_quiet; [done|].
  destruct Hret as [->|[->| ->]]; simpl; lia.
Qed.

Lemma loading_screens_witness :
  ∃ o, EmpiricaContext defaults
         (session true alice Undefined []) = Normal o
       ∧ writes o = [].
Proof.
  destruct (loading_screens defaults (session true alice Undefined [])
              (or_intror (conj eq_refl (or_intror (or_intror eq_refl)))))
    as (o & Ho & _ & Hw & _).
  exists o. exact (conj Ho Hw).
Defined.

(** ** Readiness, the other way round *)

(** X12. The checks of the readiness predicate are also sufficient:
    with identity, player set, stage, round and game present, the
    identity and every member placed, a treatment on the game and a
    player set not smaller than [playerCount], it returns true; a
    player set larger than [playerCount] is ready as well. *)
Theorem useAllReady_ready s p ps g t :
  player s = Obj p → players s = Obj ps →
  present (stage s) = true → present (round s) = true →
  game s = Obj g → placed p = true →
  Game.treatment g = Obj t →
  (∀ n, Treatment.playerCount t = Some n →
        (n ≤ Z.of_nat (List.length ps))%Z) →
  Forall (λ m, placed m = true) ps →
  useAllReady s = Normal true.
Proof.
  intros Hp Hps Hst Hrd Hg Hplaced Ht Hcount Hall.
  unfold useAllReady. rewrite Hp, Hps, Hg.
  destruct (stage s), (round s); try done.
  rewrite Hplaced, Ht. simpl.
  assert (lengthBelow (List.length ps) (Treatment.playerCount t) = false)
    as ->.
  { unfold lengthBelow. destruct (Treatment.playerCount t) as [n|]; [|done].
    apply Z.ltb_ge. by apply Hcount. }
  simpl. f_equal. rewrite everyPlaced_forallb.
  apply forallb_forall. intros m Hm.
  rewrite Forall_forall in Hall. apply Hall. by apply list_elem_of_In.
Qed.

Lemma useAllReady_ready_witness :
  useAllReady
    (session true alice (Obj (runningGame false (Obj pairs)))
       [alice; alice; alice])
  = Normal true.
Proof.
  apply (useAllReady_ready _ alice [alice; alice; alice]
           (runningGame false (Obj pairs)) pairs); try reflexivity.
  - intros n [= <-]. simpl. lia.
  - repeat constructor.
Defined.

(** ** Unmanaged assignment, the rest of it *)

(** X13. With [unmanagedAssignment] the outer gate never hands over to
    the inner gate and never gets to its game-ended guard: a pass
    returns from line 127 at the latest, so it always returns a
    screen, also on the snapshots where the readiness predicate
    throws, and that screen is never the Lobby. *)
Theorem unmanagedAssignment_never_hands_over pr s :
  unmanagedAssignment pr = true →
  ∃ o, EmpiricaContext pr s = Normal o
       ∧ render pr s = Normal (returned o)
       ∧ (line (returned o) ≤ 127)%nat
       ∧ element (returned o) ≠ IntroSteps
       ∧ element (returned o) ≠ Lobby
       ∧ (element (returned o) = children → line (returned o) = 127%nat).
Proof.
  intros Hua. exists (SessionPass pr s).
  split; [apply EmpiricaContext_SessionPass|]. simpl.
  assert ((line (SessionGate pr s) ≤ 127)%nat
          ∧ element (SessionGate pr s) ≠ IntroSteps
          ∧ element (SessionGate pr s) ≠ Lobby
          ∧ (element (SessionGate pr s) = children →
             line (SessionGate pr s) = 127%nat)) as (H1 & H2 & H3 & H4).
  { unfold SessionGate, firstMatch. rewrite Hua.
    repeat match goal with
           | |- context [if ?c then _ else _] => destruct c
           end; simpl; split_and!; try done; lia. }
  split_and!; try done.
  rewrite render_cascade.
  by destruct (element (SessionGate pr s)).
Qed.

Lemma unmanagedAssignment_never_hands_over_witness :
  render unmanagedAssignmentOnly
    (session true alice (Obj (runningGame false Undefined)) [alice])
  = Normal (ret_at 127 children).
Proof.
  destruct (unmanagedAssignment_never_hands_over unmanagedAssignmentOnly
              (session true alice (Obj (runningGame false Undefined))
                 [alice]) eq_refl)
    as (o & Ho & Hr & _).
  rewrite Hr. f_equal.
  vm_compute in Ho. by injection Ho as <-.
Defined.

(** ** A second pass *)

Lemma GameGate_setIdentity pr s v ready :
  GameGate pr (setIdentity s "urlParams" v) ready = GameGate pr s ready.
Proof.
  rewrite <- !innerGate_GameGate. unfold innerGate.
  rewrite game_setIdentity.
  by rewrite (optget_setIdentity_ne s "urlParams" "ended").
Qed.

(** X14. The write of the outer gate does not move the pass: on the
    snapshot a pass of the outer gate leaves behind, a whole pass
    returns what it returns on the snapshot before, screen or throw. *)
Theorem render_after_pass pr s o :
  EmpiricaContext pr s = Normal o →
  render pr (after o) = render pr s.
Proof.
  rewrite EmpiricaContext_SessionPass. intros [= <-]. simpl.
  destruct (captures pr s); [|done].
  rewrite !render_cascade, SessionGate_setIdentity,
    useAllReady_setIdentity.
  destruct (element (SessionGate pr s)); try done.
  destruct (useAllReady s); simpl; [|done].
  by rewrite GameGate_setIdentity.
Qed.

Lemma render_after_pass_witness :
  render defaults
    (after (SessionPass defaults
              (session true alice (Obj (runningGame false (Obj pairs)))
                 [alice])))
  = Normal (ret_at 198 LoadingComp).
Proof.
  rewrite (render_after_pass defaults
             (session true alice (Obj (runningGame false (Obj pairs)))
                [alice])
             (SessionPass defaults
                (session true alice (Obj (runningGame false (Obj pairs)))
                   [alice]))
             eq_refl).
  reflexivity.
Defined.

(** ** The hand-over *)

(** X15. The outer gate hands over to the inner gate only from line
    138: the transport and the participant's channel are connected,
    the identity exists and has not ended, consent is given or
    disabled, the bypass is off, the game has not ended and is present
    unless [unmanagedGame] is set; and unless capture is disabled the
    identity the inner gate finds carries a truthy [urlParams]. *)
Theorem hand_over_only_when_settled pr s o :
  EmpiricaContext pr s = Normal o →
  element (returned o) = IntroSteps →
  line (returned o) = 138%nat
  ∧ tajribaConnected s = true ∧ connecting s = false
  ∧ participantConnected s = true ∧ hasPlayer s = true
  ∧ (∃ p, player s = Obj p ∧ truthy (Player.get p "ended") = false)
  ∧ (disableConsent pr = true ∨ consented s = true)
  ∧ unmanagedAssignment pr = false
  ∧ gameHasEnded (game s) = false
  ∧ (unmanagedGame pr = true ∨ present (game s) = true)
  ∧ (disableURLParamsCapture pr = false →
     truthy (optget (player (after o)) "urlParams") = true).
Proof.
  rewrite EmpiricaContext_SessionPass. intros [= <-] H. simpl in H.
  destruct (hand_over_facts pr s H)
    as (p & Hp & Hended & Hua & Hge & Hgame & ? & ? & ? & ? & ?).
  destruct (SessionGate_hands_over pr s H) as (Heq & _).
  simpl. split_and!; try done.
  - by rewrite Heq.
  - by exists p.
  - intros Hdu. unfold captures. rewrite Heq, Hdu, Hp. simpl.
    destruct (truthy (Player.get p "urlParams")) eqn:Hurl; simpl.
    + by rewrite Hp.
    + unfold setIdentity. rewrite Hp. simpl. by rewrite get_set_eq.
Qed.

Lemma hand_over_only_when_settled_witness :
  optget
    (player
       (after (SessionPass defaults
                 (session true alice (Obj (runningGame false (Obj pairs)))
                    [alice]))))
    "urlParams"
  = JObj {[ "a" := JStr "1"; "b" := JStr "2" ]}
  ∧ truthy (JObj {[ "a" := JStr "1"; "b" := JStr "2" ]}) = true.
Proof.
  split; [reflexivity|].
  destruct (hand_over_only_when_settled defaults
              (session true alice (Obj (runningGame false (Obj pairs)))
                 [alice])
              (SessionPass defaults
                 (session true alice (Obj (runningGame false (Obj pairs)))
                    [alice]))
              eq_refl eq_refl)
    as (_ & _ & _ & _ & _ & _ & _ & _ & _ & _ & H).
  exact (H eq_refl).
Defined.

(** ** The order of the player set *)

Lemma everyPlaced_Permutation ps ps' :
  ps ≡ₚ ps' → everyPlaced ps = everyPlaced ps'.
Proof.
  induction 1 as [|m ps ps' _ IH|m m' ps|ps ps' ps'' _ IH1 _ IH2]; simpl.
  - done.
  - by rewrite IH.
  - by destruct (placed m), (placed m').
  - by rewrite IH1.
Qed.

(** X16. Readiness does not depend on the order of the player set: on
    two player sets that are permutations of each other the readiness
    predicate returns the same, and so does a whole pass. *)
Theorem useAllReady_Permutation pr s ps ps' :
  ps ≡ₚ ps' →
  useAllReady (with_players s (Obj ps))
  = useAllReady (with_players s (Obj ps'))
  ∧ render pr (with_players s (Obj ps))
    = render pr (with_players s (Obj ps')).
Proof.
  intros Hperm.
  assert (useAllReady (with_players s (Obj ps))
          = useAllReady (with_players s (Obj ps'))) as Hready.
  { unfold useAllReady. simpl.
    by rewrite (Permutation_length Hperm),
         (everyPlaced_Permutation _ _ Hperm). }
  split; [exact Hready|].
  rewrite !render_cascade, Hready. reflexivity.
Qed.

Lemma useAllReady_Permutation_witness :
  useAllReady
    (with_players
       (session true alice (Obj (runningGame false (Obj pairs))) [])
       (Obj [alice; bob]))
  = useAllReady
      (with_players
         (session true alice (Obj (runningGame false (Obj pairs))) [])
         (Obj [bob; alice])).
Proof.
  exact (proj1 (useAllReady_Permutation defaults
                  (session true alice (Obj (runningGame false (Obj pairs)))
                     [])
                  [alice; bob] [bob; alice] (perm_swap bob alice []))).
Defined.

(** ** Exit, exactly *)

(** X17. The outer gate shows Exit exactly when the transport is
    connected, identity resolution is not in progress and the
    identity's [ended] is truthy. *)
Theorem Exit_iff pr s :
  ∃ o, EmpiricaContext pr s = Normal o
       ∧ (element (returned o) = Exit
          ↔ tajribaConnected s = true ∧ connecting s = false
            ∧ truthy (optget (player s) "ended") = true).
Proof.
  exists (SessionPass pr s). split; [apply EmpiricaContext_SessionPass|].
  simpl. split.
  - intros H. guard_facts H. done.
  - intros (Htc & Hcn & Hended). unfold SessionGate, firstMatch.
    by rewrite Htc, Hcn, Hended.
Qed.

(** ** When a pass throws *)

(** X18. A pass throws exactly when the outer gate hands over and the
    readiness predicate then reads the headcount of a game without
    treatment; in every other case it returns a screen. *)
Theorem render_throws_iff pr s :
  render pr s = TypeError
  ↔ (∃ o, EmpiricaContext pr s = Normal o
          ∧ element (returned o) = IntroSteps)
    ∧ readsAbsentTreatment s = true.
Proof.
  rewrite <- useAllReady_throws, render_cascade. split.
  - intros H. destruct (element (SessionGate pr s)) eqn:Hel; try done.
    destruct (useAllReady s); simpl in H; [done|].
    split; [|done]. exists (SessionPass pr s).
    split; [apply EmpiricaContext_SessionPass | done].
  - intros ((o & Ho & Hel) & Hready).
    rewrite EmpiricaContext_SessionPass in Ho. injection Ho as <-.
    simpl in Hel. by rewrite Hel, Hready.
Qed.
